(** * EcoStep: the footprint calculation of [04-merged.py]

    The calculation core of the dashboard (lines 58-155 of the source):
    [calc_transport], [calc_electricity], [calc_diet], [calc_totals] and
    [smart_tip], with the constant tables they read; around it,
    [initialize_session_state] (lines 37-49) and the parts of [main] that
    feed and read the calculation: the input column (lines 505-569), the
    result card's icon and badge class (lines 581-582) and the shares and
    whole numbers of the report (lines 743-749).  The widgets themselves
    are outside the source: what a slider hands back is a parameter.

    Numbers.  The specification speaks of real inputs and of exact sums, so a
    Python [float] is idealised here as an exact rational ([Q]); literals are
    written as in the source ([2.06916], [0.43], ...).  Numeric equalities are
    stated with [==] ([Qeq]), comparisons with [<] and [<=] on [Q].  Rounding
    of binary floating point is outside this model.

    Strings are [string]; a dict literal of the source is an insertion-ordered
    table (iteration order is observable in [calc_electricity]); the [hours]
    argument, which the function only indexes, is a [gmap string Q]; a raised
    exception is a value of [result]. *)

From Stdlib Require Import QArith Lqa String Ascii List Bool.
From stdpp Require Import gmap strings.
Import ListNotations.

Open Scope string_scope.
Open Scope Q_scope.

(* ================================================================== *)
(** ** The fragment of Python the source uses *)
(* ================================================================== *)

Module Py.

(** Exceptions the modelled code can raise. *)
Inductive exn : Type :=
| KeyError (key : string).

Inductive result (A : Type) : Type :=
| Ok (a : A)
| Raise (e : exn).
Arguments Ok {A} a.
Arguments Raise {A} e.

Definition bind {A B : Type} (m : result A) (k : A -> result B) : result B :=
  match m with
  | Ok a => k a
  | Raise e => Raise e
  end.

Definition returns {A : Type} (m : result A) : Prop :=
  exists a, m = Ok a.

(** Comparisons of two numbers, as booleans. *)
Definition lt (x y : Q) : bool :=
  match x ?= y with Lt => true | _ => false end.

Definition le (x y : Q) : bool :=
  match x ?= y with Gt => false | _ => true end.

Definition gt (x y : Q) : bool := lt y x.

(** [sub in s] on strings: [sub] occurs in [s] as a contiguous run. *)
Fixpoint contains (sub s : string) : bool :=
  String.prefix sub s ||
  match s with
  | EmptyString => false
  | String _ s' => contains sub s'
  end.

(** A dict literal: its items in insertion order. *)
Definition table (V : Type) : Type := list (string * V).

Fixpoint table_lookup {V : Type} (k : string) (d : table V) : option V :=
  match d with
  | [] => None
  | (k', v) :: d' => if String.eqb k k' then Some v else table_lookup k d'
  end.

#[export] Instance table_lookup_inst {V : Type} : Lookup string V (table V) :=
  table_lookup.

(** [for a in d]: the keys, in insertion order. *)
Definition keys {V : Type} (d : table V) : list string := map fst d.

(** [d[k]]: raises [KeyError] on a missing key. *)
Definition getitem {V M : Type} `{Lookup string V M} (d : M) (k : string)
  : result V :=
  match d !! k with
  | Some v => Ok v
  | None => Raise (KeyError k)
  end.

(** [d.get(k, dflt)]. *)
Definition get_or {V M : Type} `{Lookup string V M} (d : M) (k : string)
  (dflt : V) : V :=
  match d !! k with
  | Some v => v
  | None => dflt
  end.

(** [d.get(k)]: [None] on a missing key. *)
Definition get {V M : Type} `{Lookup string V M} (d : M) (k : string)
  : option V := d !! k.

(** [sum(f(a) for a in xs)]: the generator is consumed from the left, the
    running sum starts at [0], and the first element whose evaluation raises
    ends the call. *)
Fixpoint sum_from (acc : Q) (f : string -> result Q) (xs : list string)
  : result Q :=
  match xs with
  | [] => Ok acc
  | a :: xs' => bind (f a) (fun v => sum_from (acc + v) f xs')
  end.

Definition sum (f : string -> result Q) (xs : list string) : result Q :=
  sum_from 0 f xs.

(** [max([x, *xs], key=key)] on a list literal, which is not empty: the
    running maximum is replaced only by an item whose key is greater, so of
    several maximal items the first one is returned. *)
Definition max_by {A : Type} (key : A -> Q) (x : A) (xs : list A) : A :=
  fold_left (fun best item => if gt (key item) (key best) then item else best)
            xs x.


End Py.

Import Py.

Notation "'do' x <- m ; k" := (Py.bind m (fun x => k))
  (at level 10, x name, m at level 100, k at level 200).

(* ================================================================== *)
(** ** Constants (source lines 58-85) *)
(* ================================================================== *)

Definition PETROL_FACTOR : Q := 2.06916.
Definition DIESEL_FACTOR : Q := 2.57082.

Definition GRID_FACTOR : Q := 0.43.

Definition APPLIANCE_KW : table Q :=
  [ ("AC (1.5 Ton)", 1.50);
    ("TV (LED)",     0.10);
    ("Laptop",       0.05);
    ("Lights (LED)", 0.01) ].

Definition DIET_FACTORS : table Q :=
  [ ("High Meat (Beef / Lamb)",          8.0);
    ("Mixed (Poultry / Fish)",           4.0);
    ("Vegetarian / Vegan (Plant-based)", 1.5) ].

Definition TREE_DAILY_ABS  : Q := 0.057.
Definition PHONE_CHARGE_KG : Q := 0.008.
Definition KM_CAR_FACTOR   : Q := 0.170.

Definition GRADE_LOW  : Q := 12.0.
Definition GRADE_HIGH : Q := 50.0.

(** The options of the fuel selectbox (source line 509): the fuel kinds the
    dashboard itself passes to [calc_transport]. *)
Definition fuel_type_options : list string :=
  [ "Petrol"; "Diesel"; "None (EV / Walk / Cycle)" ].

(* ================================================================== *)
(** ** The calculation (source lines 87-155) *)
(* ================================================================== *)

Definition calc_transport (fuel_type : string) (litres : Q) : Q :=
  if contains "Petrol" fuel_type then litres * PETROL_FACTOR
  else if contains "Diesel" fuel_type then litres * DIESEL_FACTOR
  else 0.0.

Definition calc_electricity (hours : gmap string Q) : result (Q * Q) :=
  do kwh <- Py.sum (fun a => do h <- getitem hours a;
                             do kw <- getitem APPLIANCE_KW a;
                             Ok (h * kw))
                   (keys APPLIANCE_KW);
  Ok (kwh, kwh * GRID_FACTOR).

Definition calc_diet (choice : string) : Q :=
  get_or DIET_FACTORS choice 0.0.

(** The dict [calc_totals] returns, one field per key. *)
Record totals : Type := Totals {
  transport   : Q;
  electricity : Q;
  diet        : Q;
  total       : Q;
  monthly     : Q;
  trees       : Q;
  phones      : Q;
  km_eq       : Q;
  grade       : string;
  badge       : string;
  badge_color : string;
  dominant    : string
}.

Definition calc_totals (transport electricity diet : Q) : totals :=
  let total := transport + electricity + diet in
  let monthly := total * 30 in
  let trees := if gt total 0 then total / TREE_DAILY_ABS else 0 in
  let phones := if gt total 0 then total / PHONE_CHARGE_KG else 0 in
  let km_eq := if gt total 0 then total / KM_CAR_FACTOR else 0 in
  let '(grade, badge, badge_color) :=
    if lt total GRADE_LOW then ("Low", "Excellent", "#10b981")
    else if le total GRADE_HIGH then ("Moderate", "Good", "#f59e0b")
    else ("High", "Needs Work", "#ef4444") in
  let dominant :=
    fst (max_by snd
           ("Transport", transport)
           [("Electricity", electricity); ("Diet", diet)]) in
  Totals transport electricity diet total monthly trees phones km_eq
         grade badge badge_color dominant.

Definition smart_tip (dominant : string) : option (string * string) :=
  let tips : table (string * string) :=
    [ ("Transport",
       (EmptyString,
        "Your biggest footprint driver is **Transport**. Switching just " ++
        "2 days/week to public transit or cycling can cut your transport " ++
        "emissions by up to **40%**."));
      ("Electricity",
       (EmptyString,
        "Your biggest driver is **Energy Use**. Raising your AC thermostat " ++
        "by 2 °C and switching to LED bulbs could reduce your " ++
        "electricity emissions significantly."));
      ("Diet",
       (EmptyString,
        "Your biggest driver is **Diet**. One meat-free day per week saves " ++
        "roughly **0.5 tonnes CO₂e/year** — equivalent to planting 9 trees.")) ] in
  get tips dominant.

(* ================================================================== *)
(** ** The dashboard around the calculation *)
(* ================================================================== *)

(** A value of the session state: the fuel and diet entries are strings,
    the litres and hours entries are numbers. *)
Inductive value : Type :=
| VStr (s : string)
| VNum (x : Q).

(** The [defaults] dict of [initialize_session_state] (source lines 38-46). *)
Definition defaults : table value :=
  [ ("fuel_type",    VStr "Petrol");
    ("fuel_litres",  VNum 3.0);
    ("ac_hours",     VNum 2.0);
    ("tv_hours",     VNum 2.0);
    ("laptop_hours", VNum 4.0);
    ("light_hours",  VNum 3.0);
    ("diet_choice",  VStr "Mixed (Poultry / Fish)") ].

(** [for key, value in items: if key not in state: state[key] = value]. *)
Definition set_missing (items : table value) (session_state : gmap string value)
  : gmap string value :=
  fold_left (fun state '(key, v) =>
               match state !! key with
               | None => <[key := v]> state
               | Some _ => state
               end)
            items session_state.

(** Source lines 37-49, with the session state passed in and out. *)
Definition initialize_session_state (session_state : gmap string value)
  : gmap string value :=
  set_missing defaults session_state.

(** The dict the electricity expander iterates (source lines 535-540):
    appliance name, then session key and the slider's bounds. *)
Definition appliance_sliders : table (string * Q * Q) :=
  [ ("AC (1.5 Ton)", ("ac_hours",     0.0, 18.0));
    ("TV (LED)",     ("tv_hours",     0.0, 16.0));
    ("Laptop",       ("laptop_hours", 0.0, 16.0));
    ("Lights (LED)", ("light_hours",  0.0, 24.0)) ].

Section Dashboard.

(** [st.slider(..., min_value=lo, max_value=hi, key=key)]: the widget is
    outside the source, so the value it hands back is a parameter. *)
Variable slider : string -> Q -> Q -> Q.

(** The transport expander (source lines 507-525): the litres slider is
    read unless the fuel kind contains "None", in which case the litres
    entry of the session state is reset.  Returns the session state, the
    litres and the transport emissions. *)
Definition main_transport (fuel_type : string)
  (session_state : gmap string value) : gmap string value * Q * Q :=
  let '(session_state, fuel_litres) :=
    if negb (contains "None" fuel_type)
    then (session_state, slider "fuel_litres" 0.0 80.0)
    else (<["fuel_litres" := VNum 0.0]> session_state, 0.0) in
  (session_state, fuel_litres, calc_transport fuel_type fuel_litres).

(** The loop of the electricity expander (source lines 534-548). *)
Fixpoint collect_hours (items : table (string * Q * Q))
  (hours_used : gmap string Q) : result (gmap string Q) :=
  match items with
  | [] => Ok hours_used
  | (appliance, (key, lo, hi)) :: items' =>
    do kw <- getitem APPLIANCE_KW appliance;
    collect_hours items' (<[appliance := slider key lo hi]> hours_used)
  end.

(** The electricity expander (source lines 533-550): the hours collected,
    then [elec_kwh] and [electricity_co2]. *)
Definition main_electricity : result (gmap string Q * Q * Q) :=
  do hours_used <- collect_hours appliance_sliders ∅;
  do r <- calc_electricity hours_used;
  Ok (hours_used, fst r, snd r).

(** The input column and the call of [calc_totals] (source lines 505-569). *)
Definition main_results (fuel_type diet_choice : string)
  (session_state : gmap string value) : result (gmap string value * totals) :=
  let '(session_state, fuel_litres, transport_co2) :=
    main_transport fuel_type session_state in
  do el <- main_electricity;
  let electricity_co2 := snd el in
  let diet_co2 := calc_diet diet_choice in
  Ok (session_state, calc_totals transport_co2 electricity_co2 diet_co2).

End Dashboard.

(** The slider contract: the value lies between the bounds it was given,
    when these are in order. *)
Definition slider_in_range (slider : string -> Q -> Q -> Q) : Prop :=
  forall (key : string) (lo hi : Q), lo <= hi -> lo <= slider key lo hi <= hi.

(** A slider pushed to its upper bound, and one left at its lower bound. *)
Definition slider_max (key : string) (lo hi : Q) : Q := hi.
Definition slider_min (key : string) (lo hi : Q) : Q := lo.

(** The result card's icon and badge class (source lines 581-582). *)
Definition icon (grade : string) : string :=
  if String.eqb grade "Low" then "🟢"
  else if String.eqb grade "Moderate" then "🟡"
  else "🔴".

Definition badge_class (grade : string) : string :=
  if String.eqb grade "Low" then "badge-low"
  else if String.eqb grade "Moderate" then "badge-moderate"
  else "badge-high".

(** A category's share of the total in the Markdown report, before it is
    formatted (source lines 743-745). *)
Definition percent (part total : Q) : Q :=
  if gt total 0 then part / total * 100 else 0.

(* ================================================================== *)
(** ** Names and inputs the statements use *)
(* ================================================================== *)

(** The four appliance names, in the order [calc_electricity] visits them. *)
Definition appliances : list string :=
  ["AC (1.5 Ton)"; "TV (LED)"; "Laptop"; "Lights (LED)"].

(** The three strings [calc_totals] can name as dominant. *)
Definition categories : list string := ["Transport"; "Electricity"; "Diet"].

(** An hours mapping without the Lights entry. *)
Definition hours_without_lights : gmap string Q :=
  <["AC (1.5 Ton)" := 2.0]> (<["TV (LED)" := 2.0]> (<["Laptop" := 4.0]> ∅)).

(** [hours] lacks the appliance [a]. *)
Definition missing (hours : gmap string Q) (a : string) : Prop :=
  hours !! a = None.

(** The hours of the dashboard's initial state (source lines 41-44). *)
Definition default_hours : gmap string Q :=
  <["AC (1.5 Ton)" := 2.0]> (<["TV (LED)" := 2.0]>
  (<["Laptop" := 4.0]> (<["Lights (LED)" := 3.0]> ∅))).

(* ================================================================== *)
(** ** Facts about the Python fragment *)
(* ================================================================== *)

Section PyFacts.

Lemma lt_reflect (x y : Q) : reflect (x < y) (Py.lt x y).
Proof.
  unfold Py.lt. destruct (x ?= y) eqn:E; constructor.
  - apply Qeq_alt in E. lra.
  - now apply Qlt_alt.
  - apply Qgt_alt in E. lra.
Qed.

Lemma le_reflect (x y : Q) : reflect (x <= y) (Py.le x y).
Proof.
  unfold Py.le. destruct (x ?= y) eqn:E; constructor.
  - apply Qeq_alt in E. lra.
  - apply Qlt_alt in E. lra.
  - apply Qgt_alt in E. lra.
Qed.

Lemma gt_reflect (x y : Q) : reflect (y < x) (Py.gt x y).
Proof. apply lt_reflect. Qed.

(** [String.prefix] is the prefix relation. *)
Lemma prefix_app (sub s : string) :
  String.prefix sub s = true <-> exists post, s = sub ++ post.
Proof.
  revert s. induction sub as [|a sub IH]; intros s.
  - split; [intros _; now exists s | now destruct s].
  - destruct s as [|b s]; cbn [String.prefix].
    + split; [discriminate | intros [post E]; discriminate].
    + destruct (ascii_dec a b) as [->|Hne].
      * rewrite IH. split; intros [post E]; exists post.
        -- now rewrite E.
        -- now injection E.
      * split; [discriminate | intros [post E]].
        cbn in E. injection E as E1 E2. congruence.
Qed.

Lemma contains_unfold (sub s : string) :
  Py.contains sub s =
  String.prefix sub s ||
  match s with
  | EmptyString => false
  | String _ s' => Py.contains sub s'
  end.
Proof. now destruct s. Qed.

(** [Py.contains] is the substring relation. *)
Lemma contains_app (sub s : string) :
  Py.contains sub s = true <-> exists pre post, s = pre ++ sub ++ post.
Proof.
  induction s as [|b s IH]; rewrite contains_unfold, orb_true_iff, prefix_app.
  - split.
    + intros [[post E] | ?]; [|discriminate]. now exists EmptyString, post.
    + intros [pre [post E]]. left. exists post.
      destruct pre; [exact E | discriminate].
  - rewrite IH. split.
    + intros [[post E] | [pre [post E]]].
      * now exists EmptyString, post.
      * exists (String b pre), post. cbn. now rewrite E.
    + intros [pre [post E]]. destruct pre as [|c pre]; cbn in E.
      * left. now exists post.
      * right. injection E as _ E. now exists pre, post.
Qed.

End PyFacts.

(* ================================================================== *)
(** ** Reading the fields of [calc_totals] *)
(* ================================================================== *)

(** Case analysis on the two grade tests of an unfolded [calc_totals]. *)
Ltac grade_cases :=
  unfold calc_totals;
  destruct (Py.lt _ GRADE_LOW); [|destruct (Py.le _ GRADE_HIGH)].

Section TotalsFields.

Variables t e d : Q.

Lemma diet_eq : diet (calc_totals t e d) = d.
Proof. grade_cases; reflexivity. Qed.

Lemma total_eq : total (calc_totals t e d) = t + e + d.
Proof. grade_cases; reflexivity. Qed.

Lemma monthly_eq : monthly (calc_totals t e d) = (t + e + d) * 30.
Proof. grade_cases; reflexivity. Qed.

Lemma trees_eq :
  trees (calc_totals t e d) =
  if Py.gt (t + e + d) 0 then (t + e + d) / TREE_DAILY_ABS else 0.
Proof. grade_cases; reflexivity. Qed.

Lemma phones_eq :
  phones (calc_totals t e d) =
  if Py.gt (t + e + d) 0 then (t + e + d) / PHONE_CHARGE_KG else 0.
Proof. grade_cases; reflexivity. Qed.

Lemma km_eq_eq :
  km_eq (calc_totals t e d) =
  if Py.gt (t + e + d) 0 then (t + e + d) / KM_CAR_FACTOR else 0.
Proof. grade_cases; reflexivity. Qed.

Lemma grade_eq :
  grade (calc_totals t e d) =
  if Py.lt (t + e + d) GRADE_LOW then "Low"
  else if Py.le (t + e + d) GRADE_HIGH then "Moderate"
  else "High".
Proof. grade_cases; reflexivity. Qed.

Lemma dominant_eq :
  dominant (calc_totals t e d) =
  if Py.gt d (if Py.gt e t then e else t)
  then "Diet"
  else if Py.gt e t then "Electricity" else "Transport".
Proof.
  grade_cases; cbn; destruct (Py.gt e t); cbn; now destruct (Py.gt d _).
Qed.

End TotalsFields.

(** The grade of a total, by band. *)
Lemma grade_bands (t e d : Q) :
  (t + e + d < 12.0 -> grade (calc_totals t e d) = "Low") /\
  (12.0 <= t + e + d <= 50.0 -> grade (calc_totals t e d) = "Moderate") /\
  (50.0 < t + e + d -> grade (calc_totals t e d) = "High").
Proof.
  rewrite grade_eq. unfold GRADE_LOW, GRADE_HIGH.
  destruct (lt_reflect (t + e + d) 12.0), (le_reflect (t + e + d) 50.0);
    repeat split; intros; try reflexivity; lra.
Qed.

(* ================================================================== *)
(** ** The claims *)
(* ================================================================== *)

(** C1.  The grade of [calc_totals] is a three-band classification of the
    total: below 12.0 it is Low, from 12.0 to 50.0 (both included) it is
    Moderate, above 50.0 it is High.  In particular a total of 11.999999 is
    Low, 12.0 and 50.0 are Moderate, and 50.000001 is High, however the total
    is split over the three categories. *)
Theorem calc_totals_grade (transport electricity diet : Q) :
  let r := calc_totals transport electricity diet in
  (total r < 12.0 -> grade r = "Low") /\
  (12.0 <= total r /\ total r <= 50.0 -> grade r = "Moderate") /\
  (50.0 < total r -> grade r = "High") /\
  (total r == 11.999999 -> grade r = "Low") /\
  (total r == 12.0 -> grade r = "Moderate") /\
  (total r == 50.0 -> grade r = "Moderate") /\
  (total r == 50.000001 -> grade r = "High").
Proof.
  cbv zeta. rewrite total_eq.
  destruct (grade_bands transport electricity diet) as (Hlow & Hmid & Hhigh).
  repeat split; intros H.
  - now apply Hlow.
  - now apply Hmid.
  - now apply Hhigh.
  - apply Hlow. lra.
  - apply Hmid. lra.
  - apply Hmid. lra.
  - apply Hhigh. lra.
Qed.

Lemma calc_totals_grade_witness :
  grade (calc_totals 7.999999 0 4.0) = "Low" /\
  grade (calc_totals 6 2 4.0) = "Moderate" /\
  grade (calc_totals 40 2 8.0) = "Moderate" /\
  grade (calc_totals 42.000001 0 8.0) = "High".
Proof.
  pose proof (calc_totals_grade 7.999999 0 4.0) as (_ & _ & _ & H1 & _).
  pose proof (calc_totals_grade 6 2 4.0) as (_ & _ & _ & _ & H2 & _).
  pose proof (calc_totals_grade 40 2 8.0) as (_ & _ & _ & _ & _ & H3 & _).
  pose proof (calc_totals_grade 42.000001 0 8.0) as (_ & _ & _ & _ & _ & _ & H4).
  refine (conj (H1 _) (conj (H2 _) (conj (H3 _) (H4 _)))); reflexivity.
Defined.

(** C2.  [calc_totals] returns the exact sum of its three arguments as the
    total, thirty times the total as the monthly figure, and each context
    equivalent (trees, phones, km) as the total divided by its constant
    (0.057, 0.008, 0.170) when the total is positive and as 0 when the total
    is zero or negative. *)
Theorem calc_totals_arithmetic (transport electricity diet : Q) :
  let r := calc_totals transport electricity diet in
  total r == transport + electricity + diet /\
  monthly r == total r * 30 /\
  (0 < total r ->
   trees r == total r / 0.057 /\
   phones r == total r / 0.008 /\
   km_eq r == total r / 0.170) /\
  (total r <= 0 -> trees r == 0 /\ phones r == 0 /\ km_eq r == 0).
Proof.
  cbv zeta. rewrite total_eq, monthly_eq, trees_eq, phones_eq, km_eq_eq.
  split; [reflexivity | split; [reflexivity |]].
  destruct (gt_reflect (transport + electricity + diet) 0) as [Hpos | Hnpos].
  - split; intros H.
    + now unfold TREE_DAILY_ABS, PHONE_CHARGE_KG, KM_CAR_FACTOR.
    + lra.
  - split; intros H.
    + lra.
    + now idtac.
Qed.

Lemma calc_totals_arithmetic_witness :
  (trees (calc_totals 5 5 5) == 15 / 0.057 /\
   phones (calc_totals 5 5 5) == 15 / 0.008 /\
   km_eq (calc_totals 5 5 5) == 15 / 0.170) /\
  (trees (calc_totals (-3) 0 1.5) == 0 /\
   phones (calc_totals (-3) 0 1.5) == 0 /\
   km_eq (calc_totals (-3) 0 1.5) == 0).
Proof.
  pose proof (calc_totals_arithmetic 5 5 5) as (_ & _ & Hpos & _).
  pose proof (calc_totals_arithmetic (-3) 0 1.5) as (_ & _ & _ & Hneg).
  refine (conj (Hpos _) (Hneg _)); vm_compute; [reflexivity | discriminate].
Defined.

(** C3.  The dominant category of [calc_totals] is the category with the
    strictly largest value; among equal maxima the first in the order
    Transport, Electricity, Diet wins, so Transport needs only to be no
    smaller than the two others, Electricity must exceed Transport and be no
    smaller than Diet, and Diet must exceed both.  With 5, 5 and 5 the
    dominant category is Transport. *)
Theorem calc_totals_dominant (transport electricity diet : Q) :
  let r := calc_totals transport electricity diet in
  (electricity < transport /\ diet < transport -> dominant r = "Transport") /\
  (transport < electricity /\ diet < electricity ->
   dominant r = "Electricity") /\
  (transport < diet /\ electricity < diet -> dominant r = "Diet") /\
  (dominant r = "Transport" <->
   electricity <= transport /\ diet <= transport) /\
  (dominant r = "Electricity" <->
   transport < electricity /\ diet <= electricity) /\
  (dominant r = "Diet" <-> transport < diet /\ electricity < diet) /\
  dominant (calc_totals 5 5 5) = "Transport".
Proof.
  cbv zeta. rewrite dominant_eq.
  destruct (gt_reflect electricity transport) as [Het | Het];
    [ destruct (gt_reflect diet electricity) as [Hd | Hd]
    | destruct (gt_reflect diet transport) as [Hd | Hd] ];
    repeat apply conj; try reflexivity;
    try (intros [? ?]; (reflexivity || lra));
    intros ?; (discriminate || lra).
Qed.

Lemma calc_totals_dominant_witness :
  dominant (calc_totals 6.20748 1.4749 4.0) = "Transport" /\
  dominant (calc_totals 0 1.4749 1.5) = "Diet" /\
  dominant (calc_totals 0 5 5) = "Electricity".
Proof.
  pose proof (calc_totals_dominant 6.20748 1.4749 4.0) as (H1 & _).
  pose proof (calc_totals_dominant 0 1.4749 1.5) as (_ & _ & H2 & _).
  pose proof (calc_totals_dominant 0 5 5) as (_ & _ & _ & _ & [_ H3] & _).
  refine (conj (H1 _) (conj (H2 _) (H3 _))); split; vm_compute;
    (reflexivity || discriminate).
Defined.

(** C4.  For every litres value, in range or not, [calc_transport] returns
    litres times 2.06916 for the Petrol option, litres times 2.57082 for the
    Diesel option, and 0 for the None (EV / Walk / Cycle) option; these three
    are the options the dashboard offers. *)
Theorem calc_transport_options (litres : Q) :
  fuel_type_options = ["Petrol"; "Diesel"; "None (EV / Walk / Cycle)"] /\
  calc_transport "Petrol" litres == litres * 2.06916 /\
  calc_transport "Diesel" litres == litres * 2.57082 /\
  calc_transport "None (EV / Walk / Cycle)" litres == 0.
Proof.
  unfold calc_transport, PETROL_FACTOR, DIESEL_FACTOR.
  split; [reflexivity |].
  split; [| split].
  - change (Py.contains "Petrol" "Petrol") with true. reflexivity.
  - change (Py.contains "Petrol" "Diesel") with false.
    change (Py.contains "Diesel" "Diesel") with true. reflexivity.
  - change (Py.contains "Petrol" "None (EV / Walk / Cycle)") with false.
    change (Py.contains "Diesel" "None (EV / Walk / Cycle)") with false.
    reflexivity.
Qed.

(** C8, as the code has it.  [calc_transport] tests whether the fuel-kind
    string contains "Petrol" or "Diesel"; for every string that contains
    neither, and every litres value, it returns 0 without raising. *)
Theorem calc_transport_unrecognized (fuel_type : string) (litres : Q) :
  Py.contains "Petrol" fuel_type = false ->
  Py.contains "Diesel" fuel_type = false ->
  calc_transport fuel_type litres == 0.
Proof.
  intros HP HD. unfold calc_transport. rewrite HP, HD. reflexivity.
Qed.

Lemma calc_transport_unrecognized_witness :
  calc_transport "Hydrogen" 12.5 == 0.
Proof.
  apply (calc_transport_unrecognized "Hydrogen" 12.5); reflexivity.
Defined.

(** C8 as stated fails: "Premium Petrol" is none of the three options, yet
    10 litres of it are charged with the petrol factor, not with 0. *)
Lemma calc_transport_unrecognized_counterexample :
  ~ In "Premium Petrol" fuel_type_options /\
  calc_transport "Premium Petrol" 10 == 20.6916 /\
  ~ calc_transport "Premium Petrol" 10 == 0.
Proof.
  split; [| split].
  - cbn. intros [H | [H | [H | []]]]; discriminate H.
  - reflexivity.
  - vm_compute. discriminate.
Qed.

(* ================================================================== *)
(** ** Electricity: complete and incomplete [hours] mappings *)
(* ================================================================== *)

Lemma keys_APPLIANCE_KW : keys APPLIANCE_KW = appliances.
Proof. reflexivity. Qed.

(** [calc_electricity], one lookup of [hours] at a time. *)
Lemma calc_electricity_unfold (hours : gmap string Q) :
  calc_electricity hours =
  match hours !! "AC (1.5 Ton)" with
  | None => Raise (KeyError "AC (1.5 Ton)")
  | Some ac =>
    match hours !! "TV (LED)" with
    | None => Raise (KeyError "TV (LED)")
    | Some tv =>
      match hours !! "Laptop" with
      | None => Raise (KeyError "Laptop")
      | Some laptop =>
        match hours !! "Lights (LED)" with
        | None => Raise (KeyError "Lights (LED)")
        | Some lights =>
          let kwh :=
            0 + ac * 1.50 + tv * 0.10 + laptop * 0.05 + lights * 0.01 in
          Ok (kwh, kwh * GRID_FACTOR)
        end
      end
    end
  end.
Proof.
  unfold calc_electricity, Py.sum, getitem.
  cbn [keys APPLIANCE_KW map fst sum_from Py.bind].
  destruct (hours !! "AC (1.5 Ton)"); [| reflexivity].
  destruct (hours !! "TV (LED)"); [| reflexivity].
  destruct (hours !! "Laptop"); [| reflexivity].
  destruct (hours !! "Lights (LED)"); reflexivity.
Qed.

(** C5.  On an hours mapping that holds all four appliance names,
    [calc_electricity] returns the pair of the kWh sum over the four
    appliances, hours times power draw (AC 1.50, TV 0.10, Laptop 0.05,
    Lights 0.01), and that sum times 0.43. *)
Theorem calc_electricity_complete
  (hours : gmap string Q) (ac tv laptop lights : Q) :
  hours !! "AC (1.5 Ton)" = Some ac ->
  hours !! "TV (LED)" = Some tv ->
  hours !! "Laptop" = Some laptop ->
  hours !! "Lights (LED)" = Some lights ->
  exists kwh co2,
    calc_electricity hours = Ok (kwh, co2) /\
    kwh == ac * 1.50 + tv * 0.10 + laptop * 0.05 + lights * 0.01 /\
    co2 == kwh * 0.43.
Proof.
  intros Hac Htv Hlaptop Hlights.
  rewrite calc_electricity_unfold, Hac, Htv, Hlaptop, Hlights. cbv zeta.
  eexists _, _. split; [reflexivity | split].
  - lra.
  - reflexivity.
Qed.

Lemma calc_electricity_complete_witness :
  exists kwh co2,
    calc_electricity default_hours = Ok (kwh, co2) /\
    kwh == 2.0 * 1.50 + 2.0 * 0.10 + 4.0 * 0.05 + 3.0 * 0.01 /\
    co2 == kwh * 0.43.
Proof.
  apply (calc_electricity_complete default_hours 2.0 2.0 4.0 3.0);
    reflexivity.
Defined.

(** The result of [calc_electricity], by the first missing appliance. *)
Lemma calc_electricity_cases (hours : gmap string Q) :
  (exists k, In k appliances /\ missing hours k /\
             calc_electricity hours = Raise (KeyError k)) \/
  (exists ac tv laptop lights,
     hours !! "AC (1.5 Ton)" = Some ac /\
     hours !! "TV (LED)" = Some tv /\
     hours !! "Laptop" = Some laptop /\
     hours !! "Lights (LED)" = Some lights /\
     exists kwh, calc_electricity hours = Ok (kwh, kwh * GRID_FACTOR)).
Proof.
  rewrite calc_electricity_unfold. unfold missing, appliances.
  destruct (hours !! "AC (1.5 Ton)") as [ac|] eqn:Hac;
    [| left; eexists; cbn; eauto 6].
  destruct (hours !! "TV (LED)") as [tv|] eqn:Htv;
    [| left; eexists; cbn; eauto 6].
  destruct (hours !! "Laptop") as [laptop|] eqn:Hlaptop;
    [| left; eexists; cbn; eauto 6].
  destruct (hours !! "Lights (LED)") as [lights|] eqn:Hlights;
    [| left; eexists; cbn; eauto 7].
  right. exists ac, tv, laptop, lights. eauto 8.
Qed.

(** C6, as the code has it.  When the hours mapping lacks one or more of the
    four appliance names, [calc_electricity] raises a key error naming an
    appliance that is missing, and returns no pair. *)
Theorem calc_electricity_incomplete (hours : gmap string Q) :
  (exists a, In a appliances /\ missing hours a) ->
  (exists k, In k appliances /\ missing hours k /\
             calc_electricity hours = Raise (KeyError k)) /\
  (forall p, calc_electricity hours <> Ok p).
Proof.
  intros (a & Ha & Hmiss).
  destruct (calc_electricity_cases hours)
    as [(k & Hk & Hkm & E) | (ac & tv & laptop & lights & H1 & H2 & H3 & H4 & _)].
  - split; [now exists k |]. intros p. rewrite E. discriminate.
  - exfalso. unfold missing in Hmiss. cbn in Ha.
    destruct Ha as [<- | [<- | [<- | [<- | []]]]]; congruence.
Qed.

Lemma calc_electricity_incomplete_witness :
  (exists k, In k appliances /\ missing hours_without_lights k /\
             calc_electricity hours_without_lights = Raise (KeyError k)) /\
  (forall p, calc_electricity hours_without_lights <> Ok p).
Proof.
  apply (calc_electricity_incomplete hours_without_lights).
  exists "Lights (LED)". split; [cbn; tauto | reflexivity].
Defined.

(** C6 as stated fails: without the Lights entry the call does not return
    the pair summed over the three present appliances (3.4 kWh, 1.462 kg);
    it raises a key error for the missing name. *)
Lemma calc_electricity_incomplete_counterexample :
  missing hours_without_lights "Lights (LED)" /\
  calc_electricity hours_without_lights = Raise (KeyError "Lights (LED)") /\
  ~ Py.returns (calc_electricity hours_without_lights).
Proof.
  split; [reflexivity | split; [reflexivity |]].
  intros [p E]. discriminate E.
Qed.

(** C7.  [calc_electricity] raises a key error exactly when the hours mapping
    lacks at least one of the four appliance names; on a mapping that holds
    all four it does not raise and returns its pair of results. *)
Theorem calc_electricity_raises_iff_incomplete (hours : gmap string Q) :
  ((exists k, calc_electricity hours = Raise (KeyError k)) <->
   (missing hours "AC (1.5 Ton)" \/ missing hours "TV (LED)" \/
    missing hours "Laptop" \/ missing hours "Lights (LED)")) /\
  ((exists kwh co2, calc_electricity hours = Ok (kwh, co2)) <->
   (is_Some (hours !! "AC (1.5 Ton)") /\ is_Some (hours !! "TV (LED)") /\
    is_Some (hours !! "Laptop") /\ is_Some (hours !! "Lights (LED)"))).
Proof.
  unfold missing, is_Some.
  destruct (calc_electricity_cases hours)
    as [(k & Hk & Hkm & E) | (ac & tv & laptop & lights & H1 & H2 & H3 & H4 & kwh & E)];
    rewrite E.
  - unfold missing in Hkm. cbn in Hk. split; split.
    + intros _. destruct Hk as [<- | [<- | [<- | [<- | []]]]]; tauto.
    + intros _. now exists k.
    + intros (? & ? & ?). discriminate.
    + intros ((? & A) & (? & B) & (? & C) & (? & D)).
      destruct Hk as [<- | [<- | [<- | [<- | []]]]]; congruence.
  - rewrite H1, H2, H3, H4. split; split.
    + intros (? & ?). discriminate.
    + intros [? | [? | [? | ?]]]; discriminate.
    + intros _. eauto 8.
    + intros _. eauto.
Qed.

(* ================================================================== *)
(** ** Diet floor and the tip of the dominant category *)
(* ================================================================== *)

(** [calc_diet] on the three categories of the table. *)
Lemma calc_diet_recognized (choice : string) :
  In choice (keys DIET_FACTORS) ->
  calc_diet choice = 8.0 \/ calc_diet choice = 4.0 \/ calc_diet choice = 1.5.
Proof.
  cbn. intros [<- | [<- | [<- | []]]]; cbv [calc_diet]; auto.
Qed.

(** C9.  With a diet category of the table (factors 8.0, 4.0, 1.5: at least
    1.5) and transport and electricity values that are not negative, the
    total of [calc_totals] is never 0, it is positive, and the context
    equivalents are the quotients; the branch for a total that is zero or
    negative is not reached under these conditions, yet it is there: whenever
    the three inputs sum to 0 or less the context equivalents are 0. *)
Theorem calc_totals_total_never_zero
  (choice : string) (transport electricity : Q) :
  In choice (keys DIET_FACTORS) ->
  0 <= transport ->
  0 <= electricity ->
  let r := calc_totals transport electricity (calc_diet choice) in
  1.5 <= diet r /\
  ~ total r == 0 /\
  0 < total r /\
  trees r == total r / 0.057 /\
  phones r == total r / 0.008 /\
  km_eq r == total r / 0.170 /\
  (forall t e d : Q,
     t + e + d <= 0 ->
     trees (calc_totals t e d) == 0 /\
     phones (calc_totals t e d) == 0 /\
     km_eq (calc_totals t e d) == 0).
Proof.
  intros Hchoice Ht He. cbv zeta.
  assert (Hdiet : 1.5 <= calc_diet choice).
  { destruct (calc_diet_recognized choice Hchoice) as [-> | [-> | ->]]; lra. }
  assert (Hpos : 0 < transport + electricity + calc_diet choice) by lra.
  rewrite diet_eq, total_eq, trees_eq, phones_eq, km_eq_eq.
  destruct (gt_reflect (transport + electricity + calc_diet choice) 0)
    as [_ | Hn]; [| contradiction].
  split; [exact Hdiet |].
  split; [lra |].
  split; [exact Hpos |].
  do 3 (split; [reflexivity |]).
  intros t e d Hle. rewrite trees_eq, phones_eq, km_eq_eq.
  destruct (gt_reflect (t + e + d) 0); [lra | now idtac].
Qed.

Lemma calc_totals_total_never_zero_witness :
  ~ total (calc_totals 0 0 (calc_diet "Vegetarian / Vegan (Plant-based)")) == 0.
Proof.
  apply (calc_totals_total_never_zero
           "Vegetarian / Vegan (Plant-based)" 0 0);
    [cbn; tauto | discriminate | discriminate].
Defined.

(** C10.  The dominant field of every [calc_totals] result is one of
    "Transport", "Electricity", "Diet"; [smart_tip] is defined on exactly
    these three strings and yields no result on any other; so [smart_tip] of
    the dominant field of a [calc_totals] result is always defined. *)
Theorem smart_tip_of_dominant_defined :
  (forall t e d : Q, In (dominant (calc_totals t e d)) categories) /\
  (forall s : string, is_Some (smart_tip s) <-> In s categories) /\
  (forall s : string, ~ In s categories <-> smart_tip s = None) /\
  (forall t e d : Q, is_Some (smart_tip (dominant (calc_totals t e d)))).
Proof.
  assert (Hdom : forall t e d : Q, In (dominant (calc_totals t e d)) categories).
  { intros t e d. rewrite dominant_eq. cbn.
    destruct (Py.gt d _); [tauto |]. destruct (Py.gt e t); tauto. }
  assert (Htip : forall s : string, is_Some (smart_tip s) <-> In s categories).
  { intros s. unfold smart_tip, Py.get, lookup, table_lookup_inst. cbn.
    destruct (String.eqb_spec s "Transport") as [-> | H1]; [split; eauto |].
    destruct (String.eqb_spec s "Electricity") as [-> | H2]; [split; eauto |].
    destruct (String.eqb_spec s "Diet") as [-> | H3]; [split; eauto 6 |].
    split.
    - intros [? E]. discriminate E.
    - intros [E | [E | [E | []]]]; congruence. }
  split; [exact Hdom |]. split; [exact Htip |]. split.
  - intros s. rewrite <- Htip. unfold is_Some.
    destruct (smart_tip s) as [p |]; split.
    + intros H. exfalso. eauto.
    + discriminate.
    + reflexivity.
    + intros _ [? E]. discriminate E.
  - intros t e d. apply Htip, Hdom.
Qed.

(* ================================================================== *)
(** ** Further properties of the calculation *)
(* ================================================================== *)

(** [calc_diet] returns 8.0, 4.0 and 1.5 on the three categories of the
    table and falls back to 0 on every other string. *)
Theorem calc_diet_values :
  calc_diet "High Meat (Beef / Lamb)" == 8.0 /\
  calc_diet "Mixed (Poultry / Fish)" == 4.0 /\
  calc_diet "Vegetarian / Vegan (Plant-based)" == 1.5 /\
  (forall choice : string,
     ~ In choice (keys DIET_FACTORS) -> calc_diet choice == 0).
Proof.
  do 3 (split; [reflexivity |]).
  intros choice Hnot. cbn in Hnot.
  unfold calc_diet, get_or, lookup, table_lookup_inst. cbn.
  destruct (String.eqb_spec choice "High Meat (Beef / Lamb)");
    [subst; tauto |].
  destruct (String.eqb_spec choice "Mixed (Poultry / Fish)");
    [subst; tauto |].
  destruct (String.eqb_spec choice "Vegetarian / Vegan (Plant-based)");
    [subst; tauto | reflexivity].
Qed.

(** The dashboard's initial state end to end: 3.0 litres of petrol give
    6.20748 kg; the default hours give 3.43 kWh and 1.4749 kg; the mixed diet
    gives 4.0 kg; the total is 11.68238 kg, graded Low, dominated by
    Transport, with a monthly figure of 350.4714 kg. *)
Theorem default_inputs_scenario :
  calc_transport "Petrol" 3.0 == 6.20748 /\
  calc_diet "Mixed (Poultry / Fish)" == 4.0 /\
  exists kwh co2,
    calc_electricity default_hours = Ok (kwh, co2) /\
    kwh == 3.43 /\
    co2 == 1.4749 /\
    let r := calc_totals (calc_transport "Petrol" 3.0) co2
                         (calc_diet "Mixed (Poultry / Fish)") in
    total r == 11.68238 /\
    monthly r == 350.4714 /\
    grade r = "Low" /\
    dominant r = "Transport".
Proof.
  split; [reflexivity | split; [reflexivity |]].
  eexists _, _. split; [reflexivity |].
  do 2 (split; [reflexivity |]). cbv zeta.
  do 3 (split; [reflexivity |]). reflexivity.
Qed.

(* ================================================================== *)
(** ** Session state *)
(* ================================================================== *)

(** What [set_missing] leaves under a key: the old entry if there was one,
    else the first entry of the items under that key. *)
Lemma set_missing_lookup (items : table value) (state : gmap string value)
  (k : string) :
  set_missing items state !! k =
  match state !! k with
  | Some v => Some v
  | None => table_lookup k items
  end.
Proof.
  revert state. unfold set_missing.
  induction items as [| [key v] items IH]; intros state; cbn.
  - now destruct (state !! k).
  - rewrite IH. destruct (state !! key) eqn:Hkey.
    + destruct (state !! k) eqn:Hk; [reflexivity |].
      destruct (String.eqb_spec k key) as [-> | Hne];
        [congruence | reflexivity].
    + destruct (String.eqb_spec k key) as [-> | Hne].
      * now rewrite lookup_insert_eq, Hkey.
      * rewrite lookup_insert_ne by congruence. reflexivity.
Qed.

(** [initialize_session_state] never overwrites: an entry the session state
    already holds, under a default key or any other, keeps its value. *)
Theorem initialize_session_state_keeps
  (session_state : gmap string value) (k : string) (v : value) :
  session_state !! k = Some v ->
  initialize_session_state session_state !! k = Some v.
Proof.
  intros Hk. unfold initialize_session_state.
  now rewrite set_missing_lookup, Hk.
Qed.

Lemma initialize_session_state_keeps_witness :
  initialize_session_state (<["fuel_type" := VStr "Diesel"]> ∅) !! "fuel_type"
  = Some (VStr "Diesel").
Proof.
  apply (initialize_session_state_keeps
           (<["fuel_type" := VStr "Diesel"]> ∅) "fuel_type" (VStr "Diesel")).
  reflexivity.
Defined.

(** After [initialize_session_state] a key the session state lacked holds
    its default, or is still absent when it has no default; so each of the
    seven default keys is bound afterwards, whatever the state was. *)
Theorem initialize_session_state_fills (session_state : gmap string value) :
  (forall k : string,
     session_state !! k = None ->
     initialize_session_state session_state !! k = table_lookup k defaults) /\
  (forall k : string,
     In k ["fuel_type"; "fuel_litres"; "ac_hours"; "tv_hours";
           "laptop_hours"; "light_hours"; "diet_choice"] ->
     is_Some (initialize_session_state session_state !! k)).
Proof.
  unfold initialize_session_state. split; intros k Hk.
  - now rewrite set_missing_lookup, Hk.
  - rewrite set_missing_lookup. destruct (session_state !! k); [eauto |].
    cbn in Hk.
    destruct Hk as [<- | [<- | [<- | [<- | [<- | [<- | [<- | []]]]]]]];
      cbn; eauto.
Qed.

Lemma initialize_session_state_fills_witness :
  initialize_session_state ∅ !! "fuel_litres" = Some (VNum 3.0) /\
  is_Some (initialize_session_state ∅ !! "diet_choice").
Proof.
  pose proof (initialize_session_state_fills ∅) as [Hfill Hbound].
  split.
  - apply (Hfill "fuel_litres"). reflexivity.
  - apply (Hbound "diet_choice"). cbn. tauto.
Defined.

(** Running [initialize_session_state] again changes nothing (the script is
    rerun on every interaction). *)
Theorem initialize_session_state_idempotent
  (session_state : gmap string value) :
  initialize_session_state (initialize_session_state session_state) =
  initialize_session_state session_state.
Proof.
  apply map_eq. intros k. unfold initialize_session_state.
  rewrite !set_missing_lookup.
  destruct (session_state !! k); [reflexivity |].
  now destruct (table_lookup k defaults).
Qed.

(* ================================================================== *)
(** ** Transport: substrings and litres *)
(* ================================================================== *)

(** [calc_transport] as a multiple of the litres. *)
Lemma calc_transport_factor (fuel_type : string) :
  exists factor : Q,
    0 <= factor /\ forall litres : Q,
      calc_transport fuel_type litres == litres * factor.
Proof.
  unfold calc_transport, PETROL_FACTOR, DIESEL_FACTOR.
  destruct (Py.contains "Petrol" fuel_type);
    [| destruct (Py.contains "Diesel" fuel_type)].
  - exists 2.06916. split; [lra | reflexivity].
  - exists 2.57082. split; [lra | reflexivity].
  - exists 0. split; [lra | intros; lra].
Qed.

(** The petrol test comes first: a fuel kind in which "Petrol" occurs
    anywhere is charged 2.06916 kg per litre, also when "Diesel" occurs in it
    as well. *)
Theorem calc_transport_petrol_first (pre post : string) (litres : Q) :
  calc_transport (pre ++ "Petrol" ++ post) litres == litres * 2.06916.
Proof.
  unfold calc_transport, PETROL_FACTOR.
  replace (Py.contains "Petrol" (pre ++ "Petrol" ++ post)) with true;
    [reflexivity |].
  symmetry. apply contains_app. now exists pre, post.
Qed.

(** A fuel kind in which "Diesel" occurs and "Petrol" does not is charged
    2.57082 kg per litre. *)
Theorem calc_transport_diesel (pre post : string) (litres : Q) :
  Py.contains "Petrol" (pre ++ "Diesel" ++ post) = false ->
  calc_transport (pre ++ "Diesel" ++ post) litres == litres * 2.57082.
Proof.
  intros HP. unfold calc_transport, DIESEL_FACTOR. rewrite HP.
  replace (Py.contains "Diesel" (pre ++ "Diesel" ++ post)) with true;
    [reflexivity |].
  symmetry. apply contains_app. now exists pre, post.
Qed.

Lemma calc_transport_diesel_witness :
  calc_transport ("Bio-" ++ "Diesel" ++ " (B7)") 10 == 10 * 2.57082.
Proof.
  apply (calc_transport_diesel "Bio-" " (B7)" 10). reflexivity.
Defined.



(* ================================================================== *)
(** ** Electricity: other keys, the first missing key, growth *)
(* ================================================================== *)

(** [calc_electricity] reads the four appliance entries only: adding,
    changing or removing any other key of the hours mapping does not change
    what the call returns or raises. *)
Theorem calc_electricity_other_keys
  (hours : gmap string Q) (k : string) (v : Q) :
  ~ In k appliances ->
  calc_electricity (<[k := v]> hours) = calc_electricity hours /\
  calc_electricity (delete k hours) = calc_electricity hours.
Proof.
  intros Hk. cbn in Hk.
  rewrite !calc_electricity_unfold.
  rewrite !lookup_insert_ne, !lookup_delete_ne
    by (intros ->; apply Hk; auto 6).
  split; reflexivity.
Qed.

Lemma calc_electricity_other_keys_witness :
  calc_electricity (<["Fridge" := 24.0]> default_hours) =
  calc_electricity default_hours /\
  calc_electricity (delete "Fridge" default_hours) =
  calc_electricity default_hours.
Proof.
  apply (calc_electricity_other_keys default_hours "Fridge" 24.0).
  cbn. intros [H | [H | [H | [H | []]]]]; discriminate H.
Defined.

(** The key error of [calc_electricity] names the first missing appliance
    in the order AC, TV, Laptop, Lights: later entries are not looked at. *)
Theorem calc_electricity_first_missing (hours : gmap string Q) :
  (missing hours "AC (1.5 Ton)" ->
   calc_electricity hours = Raise (KeyError "AC (1.5 Ton)")) /\
  (is_Some (hours !! "AC (1.5 Ton)") -> missing hours "TV (LED)" ->
   calc_electricity hours = Raise (KeyError "TV (LED)")) /\
  (is_Some (hours !! "AC (1.5 Ton)") -> is_Some (hours !! "TV (LED)") ->
   missing hours "Laptop" ->
   calc_electricity hours = Raise (KeyError "Laptop")) /\
  (is_Some (hours !! "AC (1.5 Ton)") -> is_Some (hours !! "TV (LED)") ->
   is_Some (hours !! "Laptop") -> missing hours "Lights (LED)" ->
   calc_electricity hours = Raise (KeyError "Lights (LED)")).
Proof.
  unfold missing. rewrite calc_electricity_unfold.
  repeat apply conj.
  - intros ->. reflexivity.
  - intros [? ->] ->. reflexivity.
  - intros [? ->] [? ->] ->. reflexivity.
  - intros [? ->] [? ->] [? ->] ->. reflexivity.
Qed.

Lemma calc_electricity_first_missing_witness :
  calc_electricity (<["Lights (LED)" := 3.0]> ∅) =
  Raise (KeyError "AC (1.5 Ton)") /\
  calc_electricity (<["AC (1.5 Ton)" := 2.0]> ∅) =
  Raise (KeyError "TV (LED)").
Proof.
  pose proof (calc_electricity_first_missing (<["Lights (LED)" := 3.0]> ∅))
    as (H1 & _).
  pose proof (calc_electricity_first_missing (<["AC (1.5 Ton)" := 2.0]> ∅))
    as (_ & H2 & _).
  refine (conj (H1 _) (H2 _ _)); try reflexivity. now exists 2.0.
Defined.

(** The hours of the four appliances, when all are bound. *)
Lemma calc_electricity_returns (hours : gmap string Q) (kwh co2 : Q) :
  calc_electricity hours = Ok (kwh, co2) ->
  exists ac tv laptop lights,
    hours !! "AC (1.5 Ton)" = Some ac /\
    hours !! "TV (LED)" = Some tv /\
    hours !! "Laptop" = Some laptop /\
    hours !! "Lights (LED)" = Some lights /\
    kwh == ac * 1.50 + tv * 0.10 + laptop * 0.05 + lights * 0.01 /\
    co2 == kwh * 0.43.
Proof.
  rewrite calc_electricity_unfold.
  destruct (hours !! "AC (1.5 Ton)") as [ac |]; [| discriminate].
  destruct (hours !! "TV (LED)") as [tv |]; [| discriminate].
  destruct (hours !! "Laptop") as [laptop |]; [| discriminate].
  destruct (hours !! "Lights (LED)") as [lights |]; [| discriminate].
  cbv zeta. intros E. injection E as <- <-.
  exists ac, tv, laptop, lights.
  repeat (split; [reflexivity |]). split; [lra | reflexivity].
Qed.

(** [calc_electricity] grows with the hours: when two calls return and no
    appliance has fewer hours in the second mapping than in the first, the
    second call returns no fewer kWh and no less CO2e. *)
Theorem calc_electricity_monotone
  (hours hours' : gmap string Q) (kwh co2 kwh' co2' : Q) :
  calc_electricity hours = Ok (kwh, co2) ->
  calc_electricity hours' = Ok (kwh', co2') ->
  (forall (a : string) (h h' : Q),
     In a appliances -> hours !! a = Some h -> hours' !! a = Some h' ->
     h <= h') ->
  kwh <= kwh' /\ co2 <= co2'.
Proof.
  intros E E' Hle.
  apply calc_electricity_returns in E
    as (ac & tv & lp & li & A1 & A2 & A3 & A4 & Ek & Ec).
  apply calc_electricity_returns in E'
    as (ac' & tv' & lp' & li' & B1 & B2 & B3 & B4 & Ek' & Ec').
  pose proof (Hle "AC (1.5 Ton)" _ _ ltac:(cbn; tauto) A1 B1).
  pose proof (Hle "TV (LED)" _ _ ltac:(cbn; tauto) A2 B2).
  pose proof (Hle "Laptop" _ _ ltac:(cbn; tauto) A3 B3).
  pose proof (Hle "Lights (LED)" _ _ ltac:(cbn; tauto) A4 B4).
  split; lra.
Qed.

Lemma calc_electricity_monotone_witness :
  0 + 2.0 * 1.50 + 2.0 * 0.10 + 4.0 * 0.05 + 3.0 * 0.01 <=
  0 + 8.0 * 1.50 + 2.0 * 0.10 + 4.0 * 0.05 + 3.0 * 0.01 /\
  (0 + 2.0 * 1.50 + 2.0 * 0.10 + 4.0 * 0.05 + 3.0 * 0.01) * GRID_FACTOR <=
  (0 + 8.0 * 1.50 + 2.0 * 0.10 + 4.0 * 0.05 + 3.0 * 0.01) * GRID_FACTOR.
Proof.
  apply (calc_electricity_monotone
           default_hours (<["AC (1.5 Ton)" := 8.0]> default_hours)).
  - reflexivity.
  - reflexivity.
  - intros a h h' Ha Hh Hh'. cbn in Ha.
    destruct Ha as [<- | [<- | [<- | [<- | []]]]];
      vm_compute in Hh; vm_compute in Hh';
      injection Hh as <-; injection Hh' as <-; vm_compute; discriminate.
Defined.

(* ================================================================== *)
(** ** Totals: signs, grades in order, presentation *)
(* ================================================================== *)

(** Signs of the three context equivalents. *)
Lemma equivalents_sign (t e d : Q) :
  0 <= trees (calc_totals t e d) /\
  0 <= phones (calc_totals t e d) /\
  0 <= km_eq (calc_totals t e d).
Proof.
  rewrite trees_eq, phones_eq, km_eq_eq.
  unfold TREE_DAILY_ABS, PHONE_CHARGE_KG, KM_CAR_FACTOR.
  destruct (gt_reflect (t + e + d) 0) as [Hpos | Hn].
  - repeat apply conj; apply Qle_shift_div_l; lra.
  - repeat apply conj; lra.
Qed.

(** The context equivalents of [calc_totals] are never negative, whatever
    the inputs, negative ones included: a total of zero or less is shown as
    0 trees, 0 phone charges and 0 km, and the total itself may be negative
    all the same. *)
Theorem calc_totals_equivalents_nonnegative (t e d : Q) :
  0 <= trees (calc_totals t e d) /\
  0 <= phones (calc_totals t e d) /\
  0 <= km_eq (calc_totals t e d) /\
  total (calc_totals (-3) 0 1.5) < 0.
Proof.
  destruct (equivalents_sign t e d) as (Ht & Hp & Hk).
  repeat apply conj; try assumption. reflexivity.
Qed.

(** The grade follows the order of the totals: a result whose total is no
    larger than that of a Low result is Low, and a result whose total is no
    smaller than that of a High result is High. *)
Theorem calc_totals_grade_monotone (t e d t' e' d' : Q) :
  total (calc_totals t e d) <= total (calc_totals t' e' d') ->
  (grade (calc_totals t' e' d') = "Low" -> grade (calc_totals t e d) = "Low") /\
  (grade (calc_totals t e d) = "High" -> grade (calc_totals t' e' d') = "High").
Proof.
  rewrite !total_eq, !grade_eq. unfold GRADE_LOW, GRADE_HIGH. intros Hle.
  destruct (lt_reflect (t + e + d) 12.0), (le_reflect (t + e + d) 50.0),
    (lt_reflect (t' + e' + d') 12.0), (le_reflect (t' + e' + d') 50.0);
    split; intros H; try reflexivity; try discriminate H; lra.
Qed.

Lemma calc_totals_grade_monotone_witness :
  (grade (calc_totals 3 3 4.0) = "Low" -> grade (calc_totals 1 1 1.5) = "Low") /\
  (grade (calc_totals 1 1 1.5) = "High" -> grade (calc_totals 3 3 4.0) = "High").
Proof.
  apply (calc_totals_grade_monotone 1 1 1.5 3 3 4.0).
  vm_compute. discriminate.
Defined.

(** Grade, badge, colour, icon and badge class always go together: every
    result shows one of three rows, and the last branch of the icon and
    badge-class tests is reached by the grade "High" only. *)
Theorem calc_totals_presentation (t e d : Q) :
  let r := calc_totals t e d in
  In (grade r, badge r, badge_color r, icon (grade r), badge_class (grade r))
     [ ("Low", "Excellent", "#10b981", "🟢", "badge-low");
       ("Moderate", "Good", "#f59e0b", "🟡", "badge-moderate");
       ("High", "Needs Work", "#ef4444", "🔴", "badge-high") ].
Proof.
  cbv zeta. grade_cases; cbn; tauto.
Qed.

(* ================================================================== *)
(** ** The report: shares of the total and whole numbers *)
(* ================================================================== *)




(** The dominant category carries at least a third of a positive total: its
    share in the report is never below 100/3. *)
Theorem dominant_share (t e d : Q) :
  let r := calc_totals t e d in
  0 < total r ->
  (dominant r = "Transport" -> 100 / 3 <= percent t (total r)) /\
  (dominant r = "Electricity" -> 100 / 3 <= percent e (total r)) /\
  (dominant r = "Diet" -> 100 / 3 <= percent d (total r)).
Proof.
  cbv zeta. rewrite total_eq, dominant_eq. unfold percent. intros Hpos.
  destruct (gt_reflect (t + e + d) 0) as [_ | Hn]; [| contradiction].
  assert (Hdiv : forall x : Q, (t + e + d) <= 3 * x ->
                               100 / 3 <= x / (t + e + d) * 100).
  { intros x Hx.
    assert (E : x / (t + e + d) * 100 == (x * 100) / (t + e + d))
      by (field; lra).
    assert (E3 : 100 / 3 == 100 # 3) by reflexivity.
    rewrite E, E3.
    apply Qle_shift_div_l; [exact Hpos | lra]. }
  destruct (gt_reflect e t) as [Het | Het];
    [ destruct (gt_reflect d e) as [Hd | Hd]
    | destruct (gt_reflect d t) as [Hd | Hd] ];
    repeat apply conj; intros H; try discriminate H; apply Hdiv; lra.
Qed.

Lemma dominant_share_witness :
  100 / 3 <= percent 4.0 (total (calc_totals 1 1 4.0)).
Proof.
  pose proof (dominant_share 1 1 4.0) as H. cbv zeta in H.
  apply H; reflexivity.
Defined.



(* ================================================================== *)
(** ** The dashboard's own calls *)
(* ================================================================== *)

Section DashboardFacts.

Variable slider : string -> Q -> Q -> Q.

(** The hours mapping the electricity expander builds. *)
Lemma collect_hours_eq :
  collect_hours slider appliance_sliders ∅ =
  Ok (<["Lights (LED)" := slider "light_hours" 0.0 24.0]>
      (<["Laptop" := slider "laptop_hours" 0.0 16.0]>
       (<["TV (LED)" := slider "tv_hours" 0.0 16.0]>
        (<["AC (1.5 Ton)" := slider "ac_hours" 0.0 18.0]> ∅)))).
Proof. reflexivity. Qed.

Lemma main_electricity_eq :
  exists hours_used : gmap string Q,
    collect_hours slider appliance_sliders ∅ = Ok hours_used /\
    hours_used !! "AC (1.5 Ton)" = Some (slider "ac_hours" 0.0 18.0) /\
    hours_used !! "TV (LED)" = Some (slider "tv_hours" 0.0 16.0) /\
    hours_used !! "Laptop" = Some (slider "laptop_hours" 0.0 16.0) /\
    hours_used !! "Lights (LED)" = Some (slider "light_hours" 0.0 24.0) /\
    (forall a : string, ~ In a appliances -> hours_used !! a = None) /\
    main_electricity slider =
    Ok (hours_used,
        0 + slider "ac_hours" 0.0 18.0 * 1.50
          + slider "tv_hours" 0.0 16.0 * 0.10
          + slider "laptop_hours" 0.0 16.0 * 0.05
          + slider "light_hours" 0.0 24.0 * 0.01,
        (0 + slider "ac_hours" 0.0 18.0 * 1.50
           + slider "tv_hours" 0.0 16.0 * 0.10
           + slider "laptop_hours" 0.0 16.0 * 0.05
           + slider "light_hours" 0.0 24.0 * 0.01) * GRID_FACTOR).
Proof.
  eexists. split; [apply collect_hours_eq |].
  repeat (split; [first [ reflexivity
                        | now rewrite ?lookup_insert_ne by discriminate ] |]).
  split.
  - intros a Ha. cbn in Ha.
    rewrite !lookup_insert_ne by (intros <-; apply Ha; auto 6).
    apply lookup_empty.
  - unfold main_electricity. rewrite collect_hours_eq. cbn [Py.bind].
    rewrite calc_electricity_unfold.
    rewrite ?lookup_insert_eq, ?lookup_insert_ne by discriminate.
    reflexivity.
Qed.

End DashboardFacts.

(** The electricity expander never raises: whatever the sliders hand back,
    it collects exactly the four appliance entries, so its call of
    [calc_electricity] returns, with the kWh of the four slider values and
    0.43 times that as CO2e. *)
Theorem main_electricity_returns (slider : string -> Q -> Q -> Q) :
  exists (hours_used : gmap string Q) (elec_kwh electricity_co2 : Q),
    main_electricity slider = Ok (hours_used, elec_kwh, electricity_co2) /\
    (forall a : string, is_Some (hours_used !! a) <-> In a appliances) /\
    elec_kwh ==
      slider "ac_hours" 0.0 18.0 * 1.50 + slider "tv_hours" 0.0 16.0 * 0.10 +
      slider "laptop_hours" 0.0 16.0 * 0.05 +
      slider "light_hours" 0.0 24.0 * 0.01 /\
    electricity_co2 == elec_kwh * 0.43.
Proof.
  destruct (main_electricity_eq slider)
    as (hours_used & _ & H1 & H2 & H3 & H4 & Hother & E).
  eexists hours_used, _, _. split; [exact E |].
  split; [| split; [lra | reflexivity]].
  intros a. split.
  - intros Hsome.
    destruct (in_dec string_dec a appliances) as [Hin | Hnot]; [exact Hin |].
    rewrite (Hother a Hnot) in Hsome. now destruct Hsome.
  - cbn. intros [<- | [<- | [<- | [<- | []]]]]; eauto.
Qed.

(** With sliders that respect their bounds (18, 16, 16 and 24 hours) the
    electricity expander reports between 0 and 29.64 kWh and between 0 and
    12.7452 kg CO2e. *)
Theorem main_electricity_bounds (slider : string -> Q -> Q -> Q)
  (hours_used : gmap string Q) (elec_kwh electricity_co2 : Q) :
  slider_in_range slider ->
  main_electricity slider = Ok (hours_used, elec_kwh, electricity_co2) ->
  0 <= elec_kwh <= 29.64 /\ 0 <= electricity_co2 <= 12.7452.
Proof.
  intros Hrange Hmain.
  destruct (main_electricity_eq slider) as (h & _ & _ & _ & _ & _ & _ & E).
  rewrite E in Hmain. injection Hmain as _ <- <-.
  pose proof (Hrange "ac_hours" 0.0 18.0 ltac:(lra)).
  pose proof (Hrange "tv_hours" 0.0 16.0 ltac:(lra)).
  pose proof (Hrange "laptop_hours" 0.0 16.0 ltac:(lra)).
  pose proof (Hrange "light_hours" 0.0 24.0 ltac:(lra)).
  unfold GRID_FACTOR. repeat split; lra.
Qed.

Lemma slider_max_in_range : slider_in_range slider_max.
Proof. intros key lo hi Hle. unfold slider_max. split; lra. Qed.

Lemma slider_min_in_range : slider_in_range slider_min.
Proof. intros key lo hi Hle. unfold slider_min. split; lra. Qed.

Lemma main_electricity_bounds_witness :
  exists hours_used elec_kwh electricity_co2,
    main_electricity slider_max = Ok (hours_used, elec_kwh, electricity_co2) /\
    0 <= elec_kwh <= 29.64 /\ 0 <= electricity_co2 <= 12.7452 /\
    elec_kwh == 29.64 /\ electricity_co2 == 12.7452.
Proof.
  destruct (main_electricity_eq slider_max)
    as (h & _ & _ & _ & _ & _ & _ & E).
  eexists h, _, _. split; [exact E |].
  pose proof (main_electricity_bounds slider_max _ _ _
                slider_max_in_range E) as [Hk Hc].
  split; [exact Hk | split; [exact Hc |]]. split; reflexivity.
Defined.

(** [main_transport] on each of the three options. *)
Lemma main_transport_cases (slider : string -> Q -> Q -> Q)
  (fuel_type : string) (session_state : gmap string value) :
  In fuel_type fuel_type_options ->
  (fuel_type = "Petrol" /\
   main_transport slider fuel_type session_state =
   (session_state, slider "fuel_litres" 0.0 80.0,
    slider "fuel_litres" 0.0 80.0 * PETROL_FACTOR)) \/
  (fuel_type = "Diesel" /\
   main_transport slider fuel_type session_state =
   (session_state, slider "fuel_litres" 0.0 80.0,
    slider "fuel_litres" 0.0 80.0 * DIESEL_FACTOR)) \/
  (fuel_type = "None (EV / Walk / Cycle)" /\
   main_transport slider fuel_type session_state =
   (<["fuel_litres" := VNum 0.0]> session_state, 0.0, 0.0)).
Proof.
  cbn. intros [<- | [<- | [<- | []]]]; [left | right; left | right; right];
    split; reflexivity.
Qed.

(** The transport expander on the three options, with a litres slider that
    respects its bounds: the litres lie between 0 and 80, the emissions
    between 0 and 205.6656 kg, and the emissions are positive (so the caption
    is shown instead of "Zero emissions!") exactly when the option is not the
    None option and the litres are positive. *)
Theorem main_transport_bounds (slider : string -> Q -> Q -> Q)
  (fuel_type : string) (session_state : gmap string value) :
  slider_in_range slider ->
  In fuel_type fuel_type_options ->
  let r := main_transport slider fuel_type session_state in
  let fuel_litres := snd (fst r) in
  let transport_co2 := snd r in
  0 <= fuel_litres <= 80 /\
  0 <= transport_co2 <= 205.6656 /\
  (Py.gt transport_co2 0 = true <->
   fuel_type <> "None (EV / Walk / Cycle)" /\ 0 < fuel_litres).
Proof.
  intros Hrange Hin. cbv zeta.
  pose proof (Hrange "fuel_litres" 0.0 80.0 ltac:(lra)) as Hl.
  destruct (main_transport_cases slider fuel_type session_state Hin)
    as [[-> E] | [[-> E] | [-> E]]]; rewrite E; cbn [fst snd];
    unfold PETROL_FACTOR, DIESEL_FACTOR.
  - split; [lra | split; [lra |]].
    destruct (gt_reflect (slider "fuel_litres" 0.0 80.0 * 2.06916) 0);
      split; try discriminate; intros; try split; try discriminate;
      try reflexivity; try lra.
  - split; [lra | split; [lra |]].
    destruct (gt_reflect (slider "fuel_litres" 0.0 80.0 * 2.57082) 0);
      split; try discriminate; intros; try split; try discriminate;
      try reflexivity; try lra.
  - split; [lra | split; [lra |]].
    split; [discriminate | intros [Hne _]; now contradiction Hne].
Qed.

Lemma main_transport_bounds_witness :
  0 <= snd (main_transport slider_max "Diesel" ∅) <= 205.6656 /\
  snd (main_transport slider_max "Diesel" ∅) == 205.6656.
Proof.
  pose proof (main_transport_bounds slider_max "Diesel" ∅
                slider_max_in_range ltac:(cbn; tauto)) as (_ & H & _).
  split; [exact H | reflexivity].
Defined.

(** A fuel kind that contains "None" never reads the litres slider: the
    litres and the transport emissions are 0, the litres entry of the session
    state is reset to 0.0 and every other entry is kept.  Any other fuel kind
    leaves the session state as it was. *)
Theorem main_transport_none (slider : string -> Q -> Q -> Q)
  (fuel_type : string) (session_state : gmap string value) :
  let r := main_transport slider fuel_type session_state in
  (Py.contains "None" fuel_type = true ->
   snd (fst r) == 0 /\ snd r == 0 /\
   fst (fst r) !! "fuel_litres" = Some (VNum 0.0) /\
   forall k : string,
     k <> "fuel_litres" -> fst (fst r) !! k = session_state !! k) /\
  (Py.contains "None" fuel_type = false ->
   fst (fst r) = session_state /\
   snd (fst r) = slider "fuel_litres" 0.0 80.0).
Proof.
  cbv zeta. unfold main_transport.
  destruct (Py.contains "None" fuel_type); cbn [negb fst snd];
    split; intros Hc; try discriminate Hc.
  - split; [reflexivity |]. split.
    + destruct (calc_transport_factor fuel_type) as (f & _ & E).
      rewrite E. lra.
    + split; [apply lookup_insert_eq |].
      intros k Hk. now rewrite lookup_insert_ne.
  - split; reflexivity.
Qed.

Lemma main_transport_none_witness :
  snd (main_transport slider_max "None (EV / Walk / Cycle)"
         (initialize_session_state ∅)) == 0 /\
  fst (fst (main_transport slider_max "None (EV / Walk / Cycle)"
              (initialize_session_state ∅))) !! "fuel_litres"
  = Some (VNum 0.0).
Proof.
  pose proof (main_transport_none slider_max "None (EV / Walk / Cycle)"
                (initialize_session_state ∅)) as [H _].
  cbv zeta in H. destruct (H eq_refl) as (_ & H2 & H3 & _).
  split; [exact H2 | exact H3].
Defined.

(** The whole input column, with widgets that keep their contracts (sliders
    within their bounds, a fuel option and a diet category of their lists):
    nothing is raised, and the daily total lies between 1.5 and 226.4108 kg.
    So the test [total > 0] that guards the charts, the insights, the tip and
    the export always succeeds. *)
Theorem main_results_total_bounds (slider : string -> Q -> Q -> Q)
  (fuel_type diet_choice : string) (session_state : gmap string value) :
  slider_in_range slider ->
  In fuel_type fuel_type_options ->
  In diet_choice (keys DIET_FACTORS) ->
  exists (session_state' : gmap string value) (results : totals),
    main_results slider fuel_type diet_choice session_state =
    Ok (session_state', results) /\
    1.5 <= total results <= 226.4108 /\
    Py.gt (total results) 0 = true.
Proof.
  intros Hrange Hfuel Hdiet.
  pose proof (Hrange "fuel_litres" 0.0 80.0 ltac:(lra)) as Hl.
  pose proof (Hrange "ac_hours" 0.0 18.0 ltac:(lra)).
  pose proof (Hrange "tv_hours" 0.0 16.0 ltac:(lra)).
  pose proof (Hrange "laptop_hours" 0.0 16.0 ltac:(lra)).
  pose proof (Hrange "light_hours" 0.0 24.0 ltac:(lra)).
  destruct (main_electricity_eq slider) as (h & _ & _ & _ & _ & _ & _ & E).
  assert (Hd : 1.5 <= calc_diet diet_choice <= 8.0).
  { destruct (calc_diet_recognized diet_choice Hdiet) as [-> | [-> | ->]];
      split; lra. }
  unfold main_results.
  destruct (main_transport_cases slider fuel_type session_state Hfuel)
    as [[-> Et] | [[-> Et] | [-> Et]]]; rewrite Et, E; cbn [Py.bind fst snd];
    eexists _, _; (split; [reflexivity |]); rewrite total_eq;
    unfold PETROL_FACTOR, DIESEL_FACTOR, GRID_FACTOR;
    (split; [split; lra |]);
    match goal with
    | |- Py.gt ?x 0 = true => destruct (gt_reflect x 0); [reflexivity | lra]
    end.
Qed.

Lemma main_results_total_bounds_witness :
  exists (session_state' : gmap string value) (results : totals),
    main_results slider_min "None (EV / Walk / Cycle)"
                 "Vegetarian / Vegan (Plant-based)" ∅ =
    Ok (session_state', results) /\
    1.5 <= total results <= 226.4108 /\
    Py.gt (total results) 0 = true.
Proof.
  apply (main_results_total_bounds slider_min "None (EV / Walk / Cycle)"
           "Vegetarian / Vegan (Plant-based)" ∅ slider_min_in_range);
    cbn; tauto.
Defined.
